(** * Job-hunt activity dashboard: log store and aggregation

    A shallow embedding of [app.py].  The script keeps a flat log
    [data/activity_log.csv] with the columns [Date], [Category] and
    [Hours]; it appends and deletes rows and derives per-period category
    totals and a weekly series from the loaded frame.

    Conventions of the embedding.
    - A timestamp of the [Date] column is the number of days since
      1970-01-01 (a [Z]); the time of day is not part of the data model.
    - In the definitions at top level [Hours] is an exact rational and sums
      are the mathematical sums: they serve the statements about which rows,
      categories and weeks an operation yields.  The totals as the script
      computes them, with the rounding of binary64 numbers and the order of
      additions of the libraries, are in the module [Binary64].
    - [load_data] reads a file whose cells are all present; [load_data_na]
      reads a file whose [Date] cells may be missing.  The [Category] cell of
      a row is always present; a missing [Hours] cell is the binary64 value
      that is not a number.
    - The operations of the dataframe library that the script calls
      ([groupby(...).sum()], [sort_values], [resample('W').sum()],
      [drop]) are written out as list functions with the library's
      default options. *)

From Stdlib Require Import List ZArith QArith Lia Bool String Ascii.
From Stdlib Require Import Permutation Sorted OrderedTypeEx.
From Corelib Require PrimFloat.
From Stdlib Require FloatOps SpecFloat.
Import ListNotations.

Local Open Scope Z_scope.

(** ** Data model *)

(** One row of the loaded frame. *)
Record Activity : Type := mkActivity {
  Date : Z;
  Category : string;
  Hours : Q
}.

(** [df['Hours'].sum()] *)
Definition sum_hours (df : list Activity) : Q :=
  fold_right (fun r acc => (Hours r + acc)%Q) 0%Q df.

(** ** Aggregator *)

(** [df[df['Date'] >= start_date]]: boolean-mask selection keeps the rows
    whose mask is true, in frame order. *)
Definition filter_from (start_date : Z) (df : list Activity) : list Activity :=
  filter (fun r => start_date <=? Date r) df.

(** The four period tabs of [date_ranges]. *)
Inductive Tab : Type := Last7 | Last30 | Last5Months | AllTime.

(** [df['Date'].min()]; [None] is the missing value of an empty column. *)
Definition min_date (df : list Activity) : option Z :=
  match df with
  | [] => None
  | r :: df' => Some (fold_right (fun x m => Z.min (Date x) m) (Date r) df')
  end.

Definition max_date (df : list Activity) : option Z :=
  match df with
  | [] => None
  | r :: df' => Some (fold_right (fun x m => Z.max (Date x) m) (Date r) df')
  end.

(** The start date of each tab ([today - timedelta(days=n)]). *)
Definition date_ranges (today : Z) (df : list Activity) (tab : Tab) : option Z :=
  match tab with
  | Last7 => Some (today - 7)
  | Last30 => Some (today - 30)
  | Last5Months => Some (today - 5 * 30)
  | AllTime => min_date df
  end.

(** The body of the tab loop: the all-time tab copies the frame, every other
    tab selects from its start date. *)
Definition df_filtered (today : Z) (tab : Tab) (df : list Activity) : list Activity :=
  match tab with
  | AllTime => df
  | Last7 => filter_from (today - 7) df
  | Last30 => filter_from (today - 30) df
  | Last5Months => filter_from (today - 5 * 30) df
  end.

(** Order of the group keys: strings compare by code point, which on the
    byte encoding is [String.compare]. *)
Definition str_lt (a b : string) : Prop := String.compare a b = Lt.

(** One step of [groupby('Category')['Hours'].sum()]: the groups are kept in
    ascending key order (the library default [sort=True]) and the hours of
    a row are added to the total of its group. *)
Fixpoint add_to_group (c : string) (h : Q) (g : list (string * Q)) : list (string * Q) :=
  match g with
  | [] => [(c, h)]
  | (c', t) :: g' =>
      match String.compare c c' with
      | Lt => (c, h) :: g
      | Eq => (c', (t + h)%Q) :: g'
      | Gt => (c', t) :: add_to_group c h g'
      end
  end.

Definition groupby_sum (df : list Activity) : list (string * Q) :=
  fold_left (fun g r => add_to_group (Category r) (Hours r) g) df [].

(** [time_summary['合計時間 (H)'].sum()] *)
Definition sum_totals (g : list (string * Q)) : Q :=
  fold_right (fun p acc => (snd p + acc)%Q) 0%Q g.

(** [get_time_summary]: the empty frame [pd.DataFrame()] is the empty list of
    groups. *)
Definition get_time_summary (df : list Activity) : list (string * Q) * Q :=
  if match df with [] => true | _ => false end || Qeq_bool (sum_hours df) 0
  then ([], 0%Q)
  else
    let time_summary := groupby_sum df in
    (time_summary, sum_totals time_summary).

(** [time_summary.empty], the test the tab uses to show the no-data
    warning. *)
Definition summary_empty (s : list (string * Q) * Q) : bool :=
  match fst s with [] => true | _ => false end.

(** ** Weekly series *)

(** Day of the week, Monday = 0 ... Sunday = 6 (day 0 is a Thursday). *)
Definition weekday (d : Z) : Z := (d + 3) mod 7.

(** The Sunday that closes the week of [d]: the label of the bin of [d] under
    the rule ['W'] (weeks anchored on Sunday, closed and labelled on the
    right). *)
Definition week_end (d : Z) : Z := d + (6 - weekday d).

(** The bin labels of a resampling: every Sunday from the week of the first
    timestamp to the week of the last one. *)
Definition week_labels (lo hi : Z) : list Z :=
  map (fun k => lo + 7 * Z.of_nat k) (seq 0 (S (Z.to_nat ((hi - lo) / 7)))).

(** The rows of one bin. *)
Definition in_week (w : Z) (r : Activity) : bool := week_end (Date r) =? w.

(** [df_data.set_index('Date')['Hours'].resample('W').sum().reset_index()]
    of [create_line_chart]: one row per bin label, the sum over an empty bin
    being 0. *)
Definition df_weekly (df_data : list Activity) : list (Z * Q) :=
  match min_date df_data, max_date df_data with
  | Some lo, Some hi =>
      map (fun w => (w, sum_hours (filter (in_week w) df_data)))
          (week_labels (week_end lo) (week_end hi))
  | _, _ => []
  end.

(** ** Date text *)

(** The two conversions between the [Date] column on disk and a timestamp:
    [to_datetime] is [pd.to_datetime(..., format='mixed')] on one cell
    ([None] when the parser raises), [strftime] is the ['%Y-%m-%d'] text that
    the add form and [to_csv] write for a timestamp. *)
Class DateFormat : Type := {
  to_datetime : string -> option Z;
  strftime : Z -> string
}.

(** *** The ISO calendar-date instance *)

Definition days_from_civil (y m d : Z) : Z :=
  let y' := if m <=? 2 then y - 1 else y in
  let era := y' / 400 in
  let yoe := y' - era * 400 in
  let mp := if m <=? 2 then m + 9 else m - 3 in
  let doy := (153 * mp + 2) / 5 + d - 1 in
  let doe := yoe * 365 + yoe / 4 - yoe / 100 + doy in
  era * 146097 + doe - 719468.

Definition civil_from_days (z : Z) : Z * Z * Z :=
  let z' := z + 719468 in
  let era := z' / 146097 in
  let doe := z' - era * 146097 in
  let yoe := (doe - doe / 1460 + doe / 36524 - doe / 146096) / 365 in
  let doy := doe - (365 * yoe + yoe / 4 - yoe / 100) in
  let mp := (5 * doy + 2) / 153 in
  let d := doy - (153 * mp + 2) / 5 + 1 in
  let m := if mp <? 10 then mp + 3 else mp - 9 in
  (if m <=? 2 then yoe + era * 400 + 1 else yoe + era * 400, m, d).

Definition digit (n : Z) : ascii := ascii_of_nat (48 + Z.to_nat (n mod 10)).

Definition digit_value (c : ascii) : option Z :=
  let n := Z.of_nat (nat_of_ascii c) in
  if (48 <=? n) && (n <=? 57) then Some (n - 48) else None.

Definition iso_strftime (z : Z) : string :=
  let '(y, m, d) := civil_from_days z in
  String (digit (y / 1000)) (String (digit (y / 100)) (String (digit (y / 10))
  (String (digit y) (String "-" (String (digit (m / 10)) (String (digit m)
  (String "-" (String (digit (d / 10)) (String (digit d) EmptyString))))))))).

Definition number2 (a b : ascii) : option Z :=
  match digit_value a, digit_value b with
  | Some x, Some y => Some (10 * x + y)
  | _, _ => None
  end.

Definition iso_to_datetime (s : string) : option Z :=
  match s with
  | String y3 (String y2 (String y1 (String y0 (String "-" (String m1
    (String m0 (String "-" (String d1 (String d0 EmptyString))))))))) =>
      match number2 y3 y2, number2 y1 y0, number2 m1 m0, number2 d1 d0 with
      | Some yh, Some yl, Some m, Some d =>
          let z := days_from_civil (100 * yh + yl) m d in
          if (1 <=? m) && (m <=? 12) && (1 <=? d)
             && (snd (civil_from_days z) =? d) && (snd (fst (civil_from_days z)) =? m)
          then Some z else None
      | _, _, _, _ => None
      end
  | _ => None
  end.

Definition iso_format : DateFormat :=
  {| to_datetime := iso_to_datetime; strftime := iso_strftime |}.

(** ** Log store *)

(** One line of [data/activity_log.csv] below the header: the [Date] cell is
    text until [load_data] converts it. *)
Record Row : Type := mkRow {
  Date_text : string;
  Category_cell : string;
  Hours_cell : Q
}.

(** The backing file; [None] when the file does not exist. *)
Definition Store : Type := option (list Row).

(** The two handlers of [load_data]: [FileNotFoundError] and every other
    exception. *)
Inductive Error : Type := NotFound | ParseFailure.

(** [load_data] returns the frame, or shows the error and halts the script
    ([st.error] followed by [st.stop]). *)
Inductive Loaded : Type :=
  | Frame (df : list Activity)
  | Stopped (e : Error).

(** What a form shows after a submit. *)
Inductive Notice : Type :=
  | Added
  | CsvReadError
  | Halted (e : Error)
  | NoData
  | NothingSelected
  | Deleted (n : nat)
  | KeyError.

(** A frame with its index: each row carries its label. *)
Definition Indexed : Type := list (nat * Activity).

(** The index [pd.read_csv] gives: 0, 1, 2, ... in file order. *)
Definition range_index (df : list Activity) : Indexed :=
  combine (seq 0 (List.length df)) df.

(** [sort_values('Date', ascending=False)]: rows move with their labels.
    Rows of equal date keep their order here; the library's default sort
    does not promise an order among them, and the concrete frames below all
    have distinct dates. *)
Fixpoint insert_desc (x : nat * Activity) (df : Indexed) : Indexed :=
  match df with
  | [] => [x]
  | y :: df' =>
      if Date (snd y) <=? Date (snd x) then x :: df else y :: insert_desc x df'
  end.

Definition sort_values (df : Indexed) : Indexed := fold_right insert_desc [] df.

(** [reset_index(drop=True)] *)
Definition reset_index (df : Indexed) : Indexed := range_index (map snd df).

Definition has_label (labels : list nat) (l : nat) : bool :=
  existsb (Nat.eqb l) labels.

(** [df.drop(labels, axis=0)]: removes the rows whose label is listed; a
    listed label that is not in the index raises ([None]). *)
Definition drop (labels : list nat) (df : Indexed) : option Indexed :=
  if forallb (has_label (map fst df)) labels
  then Some (filter (fun p => negb (has_label labels (fst p))) df)
  else None.

(** The frame of the main script: loaded, then sorted by date, newest
    first. *)
Definition main_df (loaded : list Activity) : Indexed :=
  sort_values (range_index loaded).

(** The table of the raw-data tab, whose index column the user picks
    from. *)
Definition df_display (loaded : list Activity) : Indexed :=
  reset_index (main_df loaded).

Section LogStore.

Context {fmt : DateFormat}.

Definition parse_row (row : Row) : option Activity :=
  match to_datetime (Date_text row) with
  | Some d => Some (mkActivity d (Category_cell row) (Hours_cell row))
  | None => None
  end.

(** The conversion of the whole column: one cell that does not parse makes
    the call raise. *)
Fixpoint parse_rows (rows : list Row) : option (list Activity) :=
  match rows with
  | [] => Some []
  | row :: rows' =>
      match parse_row row, parse_rows rows' with
      | Some a, Some df => Some (a :: df)
      | _, _ => None
      end
  end.

Definition load_data (store : Store) : Loaded :=
  match store with
  | None => Stopped NotFound
  | Some rows =>
      match parse_rows rows with
      | Some df => Frame df
      | None => Stopped ParseFailure
      end
  end.

Definition write_row (a : Activity) : Row :=
  mkRow (strftime (Date a)) (Category a) (Hours a).

(** A timestamp whose written text reads back as itself. *)
Definition round_trips (d : Z) : Prop := to_datetime (strftime d) = Some d.

(** [to_csv('data/activity_log.csv', index=False)] of a loaded frame. *)
Definition to_csv (df : list Activity) : Store := Some (map write_row df).

(** The submit branch of [add_new_activity_form]: the file is read without
    converting the dates, the new row is concatenated and the file is
    written again. *)
Definition add_new_activity_form (store : Store) (new : Activity) : Store * Notice :=
  match store with
  | None => (store, CsvReadError)
  | Some rows => (Some (rows ++ [write_row new]), Added)
  end.

(** A run of the script in which the delete form is submitted with
    [indices_to_delete]. *)
Definition delete_form (store : Store) (indices_to_delete : list nat) : Store * Notice :=
  match load_data store with
  | Stopped e => (store, Halted e)
  | Frame loaded =>
      let df := main_df loaded in
      match df with
      | [] => (store, NoData)
      | _ :: _ =>
          match indices_to_delete with
          | [] => (store, NothingSelected)
          | _ :: _ =>
              match drop indices_to_delete df with
              | Some df_final =>
                  (to_csv (map snd df_final), Deleted (List.length indices_to_delete))
              | None => (store, KeyError)
              end
          end
      end
  end.

End LogStore.

(** ** Reference definitions from the specification *)

(** The elements of [S] whose zero-based position is not in [P], in the
    order of [S]. *)
Definition without_positions {A : Type} (P : list nat) (S : list A) : list A :=
  map snd (filter (fun p => negb (has_label P (fst p))) (combine (seq 0 (List.length S)) S)).

(** A set of valid positions into a sequence of length [n]. *)
Definition valid_positions (n : nat) (P : list nat) : Prop :=
  P <> [] /\ NoDup P /\ Forall (fun i => (i < n)%nat) P.

(** The categories of a frame in order of first appearance. *)
Fixpoint first_appearance (df : list Activity) : list string :=
  match df with
  | [] => []
  | r :: df' =>
      Category r :: filter (fun c => negb (String.eqb c (Category r))) (first_appearance df')
  end.

(** The hours recorded under the key [k] in a list of groups, and the hours
    of the rows of category [k] in a frame. *)
Definition total_of (k : string) (g : list (string * Q)) : Q :=
  fold_right (fun p acc => if String.eqb (fst p) k then (snd p + acc)%Q else acc) 0%Q g.

Definition hours_of (k : string) (df : list Activity) : Q :=
  sum_hours (filter (fun r => String.eqb (Category r) k) df).

(** A weekly series without zero filling: every point is the week of some
    record. *)
Definition no_zero_fill (df : list Activity) (series : list (Z * Q)) : Prop :=
  forall w, In w (map fst series) -> exists r, In r df /\ week_end (Date r) = w.

(** ** The tabs of the main script *)

(** The rows of [df] in the main script, in its order (newest first). *)
Definition script_rows (loaded : list Activity) : list Activity :=
  map snd (main_df loaded).

(** The trend tab: the warning ([None]) when the frame is empty, the weekly
    series of [create_line_chart] otherwise. *)
Definition trend_tab (loaded : list Activity) : option (list (Z * Q)) :=
  match script_rows loaded with
  | [] => None
  | _ :: _ => Some (df_weekly (script_rows loaded))
  end.

(** ** Missing dates *)

(** The texts that [pd.read_csv] reads as a missing value (its default
    markers), and the texts that the date conversion itself reads as the
    missing timestamp. *)
Definition STR_NA_VALUES : list string :=
  [""; "#N/A"; "#N/A N/A"; "#NA"; "-1.#IND"; "-1.#QNAN"; "-NaN"; "-nan";
   "1.#IND"; "1.#QNAN"; "<NA>"; "N/A"; "NA"; "NULL"; "NaN"; "None"; "n/a";
   "nan"; "null"]%string.

Definition nat_strings : list string :=
  ["NaT"; "nat"; "NAT"; "nan"; "NaN"; "NAN"]%string.

Definition is_missing (s : string) : bool :=
  existsb (String.eqb s) STR_NA_VALUES || existsb (String.eqb s) nat_strings.

(** A loaded row whose date may be the missing timestamp ([None] is NaT). *)
Record ActivityNa : Type := mkActivityNa {
  Date_na : option Z;
  Category_na : string;
  Hours_na : Q
}.

Inductive LoadedNa : Type :=
  | FrameNa (df : list ActivityNa)
  | StoppedNa (e : Error).

Section MissingDates.

Context {fmt : DateFormat}.

(** The conversion of one [Date] cell: a missing cell becomes NaT without an
    error, any other text is parsed; the outer [None] is the raise. *)
Definition date_cell (s : string) : option (option Z) :=
  if is_missing s then Some None
  else match to_datetime s with
       | Some d => Some (Some d)
       | None => None
       end.

Definition parse_row_na (row : Row) : option ActivityNa :=
  match date_cell (Date_text row) with
  | Some d => Some (mkActivityNa d (Category_cell row) (Hours_cell row))
  | None => None
  end.

Fixpoint parse_rows_na (rows : list Row) : option (list ActivityNa) :=
  match rows with
  | [] => Some []
  | row :: rows' =>
      match parse_row_na row, parse_rows_na rows' with
      | Some a, Some df => Some (a :: df)
      | _, _ => None
      end
  end.

(** [load_data] on a file whose [Date] cells may be missing. *)
Definition load_data_na (store : Store) : LoadedNa :=
  match store with
  | None => StoppedNa NotFound
  | Some rows =>
      match parse_rows_na rows with
      | Some df => FrameNa df
      | None => StoppedNa ParseFailure
      end
  end.

End MissingDates.

(** A row with a date, seen as a row whose date may be missing. *)
Definition with_date (a : Activity) : ActivityNa :=
  mkActivityNa (Some (Date a)) (Category a) (Hours a).

(** ** The hours as binary64 numbers *)

(** The [Hours] column is a column of binary64 floating-point numbers, and
    the totals that the script shows are rounded sums.  This module writes
    the summing operations with the rounding and the order of additions of
    the libraries: [Series.sum()] is the pairwise summation of the array
    library after missing values are replaced by 0, and the sum of a group
    is the compensated (Kahan) summation of the dataframe library.  The sign
    of a zero sum is not tracked. *)
Module Binary64.

Import PrimFloat.
Local Open Scope float_scope.

Record Activity : Type := mkActivity {
  Date : Z;
  Category : string;
  Hours : float
}.

(** A missing value is the only number different from itself. *)
Definition isna (x : float) : bool := negb (x =? x).

Definition fillna (x : float) : float := if isna x then 0 else x.

(** A plain loop of additions. *)
Definition add_all (res : float) (l : list float) : float :=
  fold_left add l res.

(** The eight accumulators of a block: each takes every eighth element. *)
Definition add8 (r xs : list float) : list float :=
  map (fun p => fst p + snd p) (combine r xs).

Fixpoint add_blocks (blocks : nat) (r rest : list float) : list float * list float :=
  match blocks with
  | O => (r, rest)
  | S b => add_blocks b (add8 r (firstn 8 rest)) (skipn 8 rest)
  end.

Definition sum8 (r : list float) : float :=
  match r with
  | [r0; r1; r2; r3; r4; r5; r6; r7] =>
      ((r0 + r1) + (r2 + r3)) + ((r4 + r5) + (r6 + r7))
  | _ => add_all 0 r
  end.

(** A block of 8 to 128 elements: eight accumulators over the multiples of
    eight, combined as a tree, then the remaining elements one by one. *)
Definition block_sum (l : list float) : float :=
  let '(r, rest) :=
    add_blocks (List.length l / 8 - 1) (firstn 8 l) (skipn 8 l) in
  add_all (sum8 r) rest.

(** Pairwise summation: fewer than 8 elements are added in a loop, up to 128
    as a block, more are split in two parts, the first of a length that is a
    multiple of eight.  The fuel bounds the depth of the splitting; the
    length of the list is enough. *)
Fixpoint pairwise_sum (fuel : nat) (l : list float) : float :=
  let n := List.length l in
  if (n <? 8)%nat then add_all 0 l
  else if (n <=? 128)%nat then block_sum l
  else
    match fuel with
    | O => block_sum l
    | S fuel' =>
        let n2 := (n / 2 - (n / 2) mod 8)%nat in
        pairwise_sum fuel' (firstn n2 l) + pairwise_sum fuel' (skipn n2 l)
    end.

(** [Series.sum()] *)
Definition series_sum (l : list float) : float :=
  pairwise_sum (List.length l) (map fillna l).

(** One step of the compensated sum of a group: the state is the running sum
    and the compensation; a missing value is skipped, and a compensation that
    is not a number (after an infinite value) is reset. *)
Definition kahan_add (st : float * float) (val : float) : float * float :=
  if isna val then st
  else
    let y := val - snd st in
    let t := fst st + y in
    let c := t - fst st - y in
    (t, if isna c then 0 else c).


(** [groupby('Category')['Hours'].sum()]: the groups in ascending key order,
    each with the state of its compensated sum. *)
Fixpoint add_to_group (c : string) (h : float) (g : list (string * (float * float)))
  : list (string * (float * float)) :=
  match g with
  | [] => [(c, kahan_add (0, 0) h)]
  | (c', st) :: g' =>
      match String.compare c c' with
      | Lt => (c, kahan_add (0, 0) h) :: g
      | Eq => (c', kahan_add st h) :: g'
      | Gt => (c', st) :: add_to_group c h g'
      end
  end.

Definition group_states (df : list Activity) : list (string * (float * float)) :=
  fold_left (fun g r => add_to_group (Category r) (Hours r) g) df [].

Definition groupby_sum (df : list Activity) : list (string * float) :=
  map (fun p => (fst p, fst (snd p))) (group_states df).

(** [get_time_summary] *)
Definition get_time_summary (df : list Activity) : list (string * float) * float :=
  if match df with [] => true | _ => false end || (series_sum (map Hours df) =? 0)
  then ([], 0)
  else
    let time_summary := groupby_sum df in
    (time_summary, series_sum (map snd time_summary)).

(** [df[df['Date'] >= start_date]] *)
Definition filter_from (start_date : Z) (df : list Activity) : list Activity :=
  filter (fun r => (start_date <=? Date r)%Z) df.




(** The hours of the rows of one category, in frame order. *)
Definition hours_of (k : string) (df : list Activity) : list float :=
  map Hours (filter (fun r => String.eqb (Category r) k) df).



End Binary64.

(** ** Sums and groups *)

(** The two outcomes of [get_time_summary]. *)
Lemma get_time_summary_cases (df : list Activity) :
  (get_time_summary df = ([], 0%Q) /\ (sum_hours df == 0)%Q)
  \/ (get_time_summary df = (groupby_sum df, sum_totals (groupby_sum df))
      /\ df <> [] /\ ~ (sum_hours df == 0)%Q).
Proof.
  unfold get_time_summary. destruct df as [|r df].
  - left. split; reflexivity.
  - cbv beta iota. rewrite orb_false_l.
    destruct (Qeq_bool (sum_hours (r :: df)) 0) eqn:E.
    + left. split; [reflexivity | now apply Qeq_bool_iff].
    + right. repeat split; [discriminate | now apply Qeq_bool_neq].
Qed.

(** ** Windows *)

Lemma filter_from_In (s : Z) (df : list Activity) (r : Activity) :
  In r (filter_from s df) <-> In r df /\ s <= Date r.
Proof.
  unfold filter_from. rewrite filter_In, Z.leb_le. reflexivity.
Qed.

Lemma filter_from_app (s : Z) (df1 df2 : list Activity) :
  filter_from s (df1 ++ df2) = filter_from s df1 ++ filter_from s df2.
Proof.
  unfold filter_from. apply filter_app.
Qed.

Lemma min_date_le (df : list Activity) (m : Z) (r : Activity) :
  min_date df = Some m -> In r df -> m <= Date r.
Proof.
  destruct df as [|r0 df]; [discriminate|]. simpl. intros [= <-].
  induction df as [|x df IH]; simpl.
  - intros [<- | []]. lia.
  - intros [<- | [<- | Hin]].
    + specialize (IH (or_introl eq_refl)). lia.
    + lia.
    + specialize (IH (or_intror Hin)). lia.
Qed.

Lemma max_date_ge (df : list Activity) (m : Z) (r : Activity) :
  max_date df = Some m -> In r df -> Date r <= m.
Proof.
  destruct df as [|r0 df]; [discriminate|]. simpl. intros [= <-].
  induction df as [|x df IH]; simpl.
  - intros [<- | []]. lia.
  - intros [<- | [<- | Hin]].
    + specialize (IH (or_introl eq_refl)). lia.
    + lia.
    + specialize (IH (or_intror Hin)). lia.
Qed.

Lemma min_date_In (df : list Activity) (m : Z) :
  min_date df = Some m -> exists r, In r df /\ Date r = m.
Proof.
  destruct df as [|r0 df]; [discriminate|]. simpl. intros [= <-].
  induction df as [|x df IH]; simpl.
  - exists r0. auto.
  - destruct IH as [r [Hin Hr]].
    destruct (Z.min_spec (Date x) (fold_right (fun x m => Z.min (Date x) m) (Date r0) df))
      as [[_ ->] | [_ ->]].
    + exists x. auto.
    + exists r. split; [|exact Hr]. destruct Hin as [<- | Hin]; auto.
Qed.

Lemma max_date_In (df : list Activity) (m : Z) :
  max_date df = Some m -> exists r, In r df /\ Date r = m.
Proof.
  destruct df as [|r0 df]; [discriminate|]. simpl. intros [= <-].
  induction df as [|x df IH]; simpl.
  - exists r0. auto.
  - destruct IH as [r [Hin Hr]].
    destruct (Z.max_spec (Date x) (fold_right (fun x m => Z.max (Date x) m) (Date r0) df))
      as [[_ ->] | [_ ->]].
    + exists r. split; [|exact Hr]. destruct Hin as [<- | Hin]; auto.
    + exists x. auto.
Qed.

Lemma filter_from_all (s : Z) (df : list Activity) :
  (forall r, In r df -> s <= Date r) -> filter_from s df = df.
Proof.
  induction df as [|r df IH]; intros Hall; simpl; [reflexivity|].
  assert (s <= Date r) as ->%Z.leb_le by (apply Hall; now left).
  f_equal. apply IH. intros; apply Hall; now right.
Qed.

(** C7: the selection by start date keeps exactly the rows with
    [start_date <= Date], each as often as it occurs and in frame order; on
    the empty frame it is empty; from the earliest date of the frame it keeps
    every row. *)
Theorem filter_from_spec (s : Z) :
  filter_from s [] = []
  /\ (forall r, filter_from s [r] = if s <=? Date r then [r] else [])
  /\ (forall df1 df2, filter_from s (df1 ++ df2) = filter_from s df1 ++ filter_from s df2)
  /\ (forall df r, In r (filter_from s df) <-> In r df /\ s <= Date r)
  /\ (forall df, min_date df = Some s -> filter_from s df = df).
Proof.
  split; [reflexivity|]. split; [reflexivity|].
  split; [apply filter_from_app|]. split.
  - intros df r. apply filter_from_In.
  - intros df Hmin. apply filter_from_all. intros r. now apply min_date_le.
Qed.

Lemma filter_from_spec_witness :
  let df := [mkActivity 19723 "A" 2; mkActivity 19725 "A" 1; mkActivity 19732 "B" 3] in
  filter_from 19723 df = df.
Proof.
  cbv zeta. apply (proj2 (proj2 (proj2 (proj2 (filter_from_spec 19723))))).
  reflexivity.
Defined.

(** ** Order and content of the groups *)

Lemma str_lt_trans (a b c : string) : str_lt a b -> str_lt b c -> str_lt a c.
Proof.
  unfold str_lt. intros Hab Hbc.
  apply String_as_OT.cmp_lt. apply String_as_OT.lt_trans with b;
    now apply String_as_OT.cmp_lt.
Qed.

Lemma str_lt_irrefl (a : string) : ~ str_lt a a.
Proof.
  unfold str_lt. intros H.
  assert (String.compare a a = Eq) by now apply String_as_OT.cmp_eq.
  congruence.
Qed.

Lemma compare_Gt_lt (a b : string) : String.compare a b = Gt -> str_lt b a.
Proof.
  unfold str_lt. intros H. rewrite String.compare_antisym, H. reflexivity.
Qed.

Lemma add_to_group_keys (c : string) (h : Q) (g : list (string * Q)) (k : string) :
  In k (map fst (add_to_group c h g)) <-> k = c \/ In k (map fst g).
Proof.
  induction g as [|[c' t] g IH]; simpl.
  - intuition.
  - destruct (String.compare c c') eqn:E; simpl.
    + apply String_as_OT.cmp_eq in E. subst c'. intuition.
    + intuition.
    + rewrite IH. intuition.
Qed.

Lemma add_to_group_sorted (c : string) (h : Q) (g : list (string * Q)) :
  StronglySorted str_lt (map fst g) ->
  StronglySorted str_lt (map fst (add_to_group c h g)).
Proof.
  induction g as [|[c' t] g IH]; simpl; intros Hs.
  - constructor; constructor.
  - inversion Hs as [|? ? Hs' Hall]; subst.
    destruct (String.compare c c') eqn:E; simpl.
    + exact Hs.
    + constructor; [exact Hs|]. constructor; [exact E|].
      eapply Forall_impl; [|exact Hall]. intros k. now apply str_lt_trans.
    + constructor; [now apply IH|].
      apply Forall_forall. intros k Hk. apply add_to_group_keys in Hk.
      destruct Hk as [-> | Hk].
      * now apply compare_Gt_lt.
      * rewrite Forall_forall in Hall. now apply Hall.
Qed.

Lemma fold_groups_sorted (df : list Activity) (g : list (string * Q)) :
  StronglySorted str_lt (map fst g) ->
  StronglySorted str_lt
    (map fst (fold_left (fun g r => add_to_group (Category r) (Hours r) g) df g)).
Proof.
  revert g. induction df as [|r df IH]; intros g Hs; simpl.
  - exact Hs.
  - apply IH. now apply add_to_group_sorted.
Qed.

Lemma fold_groups_keys (df : list Activity) (g : list (string * Q)) (k : string) :
  In k (map fst (fold_left (fun g r => add_to_group (Category r) (Hours r) g) df g))
  <-> In k (map fst g) \/ In k (map Category df).
Proof.
  revert g. induction df as [|r df IH]; intros g; simpl.
  - intuition.
  - rewrite IH, add_to_group_keys. intuition.
Qed.

Lemma groupby_sum_sorted (df : list Activity) :
  StronglySorted str_lt (map fst (groupby_sum df)).
Proof.
  apply fold_groups_sorted. constructor.
Qed.

Lemma groupby_sum_keys (df : list Activity) (k : string) :
  In k (map fst (groupby_sum df)) <-> In k (map Category df).
Proof.
  unfold groupby_sum. rewrite fold_groups_keys. simpl. intuition.
Qed.

Lemma total_of_add (c : string) (h : Q) (g : list (string * Q)) (k : string) :
  (total_of k (add_to_group c h g)
   == total_of k g + (if String.eqb c k then h else 0))%Q.
Proof.
  induction g as [|[c' t] g IH]; simpl.
  - destruct (String.eqb c k); ring.
  - destruct (String.compare c c') eqn:E; simpl.
    + apply String_as_OT.cmp_eq in E. subst c'.
      destruct (String.eqb c k); ring.
    + destruct (String.eqb c k), (String.eqb c' k); ring.
    + destruct (String.eqb c' k); rewrite IH; ring.
Qed.

Lemma total_of_fold (df : list Activity) (g : list (string * Q)) (k : string) :
  (total_of k (fold_left (fun g r => add_to_group (Category r) (Hours r) g) df g)
   == total_of k g + hours_of k df)%Q.
Proof.
  revert g. induction df as [|r df IH]; intros g; simpl.
  - unfold hours_of. simpl. ring.
  - rewrite IH, total_of_add. unfold hours_of. simpl.
    destruct (String.eqb (Category r) k); simpl; ring.
Qed.

Lemma total_of_absent (k : string) (g : list (string * Q)) :
  ~ In k (map fst g) -> total_of k g = 0%Q.
Proof.
  induction g as [|[c t] g IH]; simpl; intros Hn; [reflexivity|].
  destruct (String.eqb c k) eqn:E.
  - apply String.eqb_eq in E. tauto.
  - apply IH. tauto.
Qed.

Lemma total_of_sorted (k : string) (t : Q) (g : list (string * Q)) :
  StronglySorted str_lt (map fst g) -> In (k, t) g -> (total_of k g == t)%Q.
Proof.
  induction g as [|[c t'] g IH]; simpl; intros Hs Hin; [contradiction|].
  inversion Hs as [|? ? Hs' Hall]; subst.
  destruct Hin as [[= -> ->] | Hin].
  - rewrite String.eqb_refl, total_of_absent; [ring|].
    intros Hk. rewrite Forall_forall in Hall.
    exact (str_lt_irrefl _ (Hall _ Hk)).
  - destruct (String.eqb c k) eqn:E.
    + apply String.eqb_eq in E. subst c. exfalso.
      rewrite Forall_forall in Hall.
      apply (str_lt_irrefl k), Hall.
      change k with (fst (k, t)). now apply in_map.
    + now apply IH.
Qed.

(** Every group of [groupby_sum] carries the sum of the hours of its
    category. *)
Lemma groupby_sum_group (df : list Activity) (k : string) (t : Q) :
  In (k, t) (groupby_sum df) -> (t == hours_of k df)%Q.
Proof.
  intros Hin.
  rewrite <- (total_of_sorted k t (groupby_sum df) (groupby_sum_sorted df) Hin).
  unfold groupby_sum. rewrite total_of_fold. simpl. ring.
Qed.

(** C8 as stated fails: the groups of a frame whose first row is of category
    B and whose second row is of category A come out as A, B, which is not
    the order of first appearance. *)
Lemma summary_order_not_first_appearance :
  let df := [mkActivity 19732 "B" 3; mkActivity 19725 "A" 1] in
  map fst (fst (get_time_summary df)) = ["A"; "B"]%string
  /\ first_appearance df = ["B"; "A"]%string
  /\ map fst (fst (get_time_summary df)) <> first_appearance df.
Proof.
  cbv zeta. split; [reflexivity|]. split; [reflexivity|].
  vm_compute. discriminate.
Qed.

(** C8, amended: the categories of the summary are in strictly ascending
    order of their labels (code-point order), whatever the order of the rows;
    each is a category of the frame, and unless the summary is the empty
    marker each category of the frame is among them. *)
Theorem summary_order_ascending (df : list Activity) :
  let keys := map fst (fst (get_time_summary df)) in
  StronglySorted str_lt keys
  /\ (forall k, In k keys -> In k (map Category df))
  /\ (summary_empty (get_time_summary df) = false ->
      forall k, In k (map Category df) -> In k keys).
Proof.
  cbv zeta. destruct (get_time_summary_cases df) as [[-> _] | [-> _]]; simpl.
  - split; [constructor|]. split; [contradiction | discriminate].
  - split; [apply groupby_sum_sorted|]. split.
    + intros k. apply groupby_sum_keys.
    + intros _ k. apply groupby_sum_keys.
Qed.

Lemma summary_order_ascending_witness :
  let df := [mkActivity 19732 "B" 3; mkActivity 19725 "A" 1] in
  In "A"%string (map fst (fst (get_time_summary df))).
Proof.
  cbv zeta. apply (proj2 (proj2 (summary_order_ascending _))).
  - reflexivity.
  - right. left. reflexivity.
Defined.



(** A summary that is not the empty marker has at least one group. *)
Lemma summary_nonempty (df : list Activity) :
  df <> [] -> ~ (sum_hours df == 0)%Q -> summary_empty (get_time_summary df) = false.
Proof.
  intros Hne Hnz.
  destruct (get_time_summary_cases df) as [[_ Hz] | [-> _]]; [now elim Hnz|].
  unfold summary_empty. simpl.
  destruct (groupby_sum df) as [|p g] eqn:E; [|reflexivity].
  destruct df as [|r df]; [now elim Hne|].
  assert (Hk : In (Category r) (map fst (groupby_sum (r :: df)))).
  { apply groupby_sum_keys. now left. }
  rewrite E in Hk. contradiction.
Qed.

(** ** Weeks *)

Lemma weekday_range (d : Z) : 0 <= weekday d < 7.
Proof. unfold weekday. apply Z.mod_pos_bound. lia. Qed.

Lemma week_end_bounds (d : Z) : d <= week_end d <= d + 6.
Proof. unfold week_end. pose proof (weekday_range d). lia. Qed.

Lemma week_end_sunday (d : Z) : weekday (week_end d) = 6.
Proof.
  unfold week_end, weekday. Z.to_euclidean_division_equations. lia.
Qed.

Lemma week_end_unique (d w : Z) :
  weekday w = 6 -> w - 6 <= d <= w -> week_end d = w.
Proof.
  unfold week_end, weekday. Z.to_euclidean_division_equations. lia.
Qed.

Lemma week_end_iff (d w : Z) :
  week_end d = w <-> weekday w = 6 /\ w - 6 <= d <= w.
Proof.
  split.
  - intros <-. split; [apply week_end_sunday|]. pose proof (week_end_bounds d). lia.
  - intros [Hs Hb]. now apply week_end_unique.
Qed.

Lemma week_end_mono (d1 d2 : Z) : d1 <= d2 -> week_end d1 <= week_end d2.
Proof.
  unfold week_end, weekday. Z.to_euclidean_division_equations. lia.
Qed.

Lemma sundays_apart (w1 w2 : Z) :
  weekday w1 = 6 -> weekday w2 = 6 -> w2 = w1 + 7 * ((w2 - w1) / 7).
Proof.
  unfold weekday. Z.to_euclidean_division_equations. lia.
Qed.

Lemma week_labels_In (lo hi w : Z) :
  lo <= hi ->
  (In w (week_labels lo hi) <-> exists k, 0 <= k <= (hi - lo) / 7 /\ w = lo + 7 * k).
Proof.
  intros Hle. unfold week_labels. rewrite in_map_iff.
  assert (0 <= (hi - lo) / 7) by (apply Z.div_pos; lia).
  split.
  - intros [n [<- Hn]]. apply in_seq in Hn. exists (Z.of_nat n). split; lia.
  - intros [k [Hk ->]]. exists (Z.to_nat k). split; [lia|].
    apply in_seq. lia.
Qed.

Lemma week_labels_sundays (lo hi w : Z) :
  weekday lo = 6 -> weekday hi = 6 -> lo <= hi ->
  (In w (week_labels lo hi) <-> weekday w = 6 /\ lo <= w <= hi).
Proof.
  intros Hlo Hhi Hle. rewrite week_labels_In by exact Hle. split.
  - intros [k [Hk ->]]. revert Hlo Hhi Hk. unfold weekday.
    Z.to_euclidean_division_equations. lia.
  - intros [Hw Hb]. exists ((w - lo) / 7). split.
    + split; [apply Z.div_pos; lia | apply Z.div_le_mono; lia].
    + now apply sundays_apart.
Qed.

Lemma week_labels_increasing (lo : Z) (n start : nat) :
  StronglySorted Z.lt (map (fun k => lo + 7 * Z.of_nat k) (seq start n)).
Proof.
  revert start. induction n as [|n IH]; intros start; cbn [seq map].
  - constructor.
  - constructor; [apply IH|].
    apply Forall_forall. intros w Hw. apply in_map_iff in Hw.
    destruct Hw as [k [<- Hk]]. apply in_seq in Hk. cbv beta. lia.
Qed.

Lemma in_week_range (w : Z) (r : Activity) :
  weekday w = 6 ->
  in_week w r = (w - 6 <=? Date r) && (Date r <=? w).
Proof.
  intros Hw. unfold in_week.
  destruct (week_end (Date r) =? w) eqn:E.
  - apply Z.eqb_eq, week_end_iff in E. symmetry.
    apply andb_true_iff. rewrite !Z.leb_le. lia.
  - apply Z.eqb_neq in E. symmetry. apply not_true_is_false. intros Hb.
    apply andb_true_iff in Hb. rewrite !Z.leb_le in Hb.
    apply E, week_end_unique; [exact Hw | lia].
Qed.

Lemma df_weekly_labels (df : list Activity) (lo hi : Z) :
  min_date df = Some lo -> max_date df = Some hi ->
  map fst (df_weekly df) = week_labels (week_end lo) (week_end hi).
Proof.
  intros Hlo Hhi. unfold df_weekly. rewrite Hlo, Hhi.
  rewrite map_map. cbn [fst]. apply map_id.
Qed.

Lemma min_max_date (df : list Activity) :
  df <> [] -> exists lo hi, min_date df = Some lo /\ max_date df = Some hi /\ lo <= hi.
Proof.
  destruct df as [|r df]; [intros H; now elim H|]. intros _.
  destruct (min_date (r :: df)) as [lo|] eqn:Hlo; [|discriminate].
  destruct (max_date (r :: df)) as [hi|] eqn:Hhi; [|discriminate].
  exists lo, hi. repeat split.
  pose proof (min_date_le _ _ r Hlo (or_introl eq_refl)).
  pose proof (max_date_ge _ _ r Hhi (or_introl eq_refl)). lia.
Qed.

(** C2 as stated fails: with one row on Monday 2024-01-01 and one on Monday
    2024-01-15 the series has a point, of value 0, for the week that ends on
    Sunday 2024-01-14, in which there is no row. *)
Lemma weekly_series_fills_gaps :
  let df := [mkActivity 19737 "B" (3 # 2); mkActivity 19723 "A" 2] in
  df_weekly df = [(19729, 2%Q); (19736, 0%Q); (19743, (3 # 2)%Q)]
  /\ filter (in_week 19736) df = []
  /\ ~ no_zero_fill df (df_weekly df).
Proof.
  cbv zeta. split; [reflexivity|]. split; [reflexivity|].
  intros Hno. destruct (Hno 19736) as [r [Hin Hr]].
  - right. left. reflexivity.
  - destruct Hin as [<- | [<- | []]]; vm_compute in Hr; discriminate.
Qed.

(** C2, amended: for a frame that is not empty the weekly series has, in
    chronological order, exactly one point for every week (ending on Sunday)
    from the week of the earliest row to the week of the latest row; the
    value of a point is the sum of the hours of the rows of its week, which
    is 0 for a week without rows. *)
Theorem weekly_series_spec (df : list Activity) :
  df <> [] ->
  let series := df_weekly df in
  StronglySorted Z.lt (map fst series)
  /\ (forall w, In w (map fst series) <->
        weekday w = 6
        /\ exists r1 r2, In r1 df /\ In r2 df
                         /\ week_end (Date r1) <= w <= week_end (Date r2))
  /\ (forall w t, In (w, t) series ->
        t = sum_hours (filter (fun r => (w - 6 <=? Date r) && (Date r <=? w)) df))
  /\ (forall w t, In (w, t) series ->
        (forall r, In r df -> week_end (Date r) <> w) -> t = 0%Q).
Proof.
  intros Hne. cbv zeta.
  destruct (min_max_date df Hne) as [lo [hi [Hlo [Hhi Hle]]]].
  pose proof (week_end_mono _ _ Hle) as Hwle.
  assert (Hin : forall w, In w (map fst (df_weekly df)) <->
                          weekday w = 6 /\ week_end lo <= w <= week_end hi).
  { intros w. rewrite (df_weekly_labels df lo hi Hlo Hhi).
    apply week_labels_sundays; auto using week_end_sunday. }
  assert (Hval : forall w t, In (w, t) (df_weekly df) ->
                             weekday w = 6 /\ t = sum_hours (filter (in_week w) df)).
  { intros w t Hwt. split.
    - apply Hin. change w with (fst (w, t)). now apply in_map.
    - unfold df_weekly in Hwt. rewrite Hlo, Hhi in Hwt.
      apply in_map_iff in Hwt. destruct Hwt as [w' [[= -> ->] _]]. reflexivity. }
  split; [|split; [|split]].
  - rewrite (df_weekly_labels df lo hi Hlo Hhi). apply week_labels_increasing.
  - intros w. rewrite Hin. split.
    + intros [Hs Hb]. split; [exact Hs|].
      destruct (min_date_In df lo Hlo) as [r1 [H1 E1]].
      destruct (max_date_In df hi Hhi) as [r2 [H2 E2]].
      exists r1, r2. rewrite E1, E2. auto.
    + intros [Hs [r1 [r2 [H1 [H2 Hb]]]]]. split; [exact Hs|].
      pose proof (week_end_mono _ _ (min_date_le df lo r1 Hlo H1)).
      pose proof (week_end_mono _ _ (max_date_ge df hi r2 Hhi H2)). lia.
  - intros w t Hwt. destruct (Hval w t Hwt) as [Hs ->].
    f_equal. apply filter_ext. intros r. now apply in_week_range.
  - intros w t Hwt Hnone. destruct (Hval w t Hwt) as [_ ->].
    assert (filter (in_week w) df = []) as ->; [|reflexivity].
    clear -Hnone. induction df as [|r df IH]; simpl; [reflexivity|].
    destruct (in_week w r) eqn:E.
    + apply Z.eqb_eq in E. elim (Hnone r (or_introl eq_refl) E).
    + apply IH. intros r' Hr'. apply Hnone. now right.
Qed.

Lemma weekly_series_spec_witness :
  let df := [mkActivity 19737 "B" (3 # 2); mkActivity 19723 "A" 2] in
  StronglySorted Z.lt (map fst (df_weekly df))
  /\ (forall w, In w (map fst (df_weekly df)) <->
        weekday w = 6
        /\ exists r1 r2, In r1 df /\ In r2 df
                         /\ week_end (Date r1) <= w <= week_end (Date r2))
  /\ (forall w t, In (w, t) (df_weekly df) ->
        t = sum_hours (filter (fun r => (w - 6 <=? Date r) && (Date r <=? w)) df))
  /\ (forall w t, In (w, t) (df_weekly df) ->
        (forall r, In r df -> week_end (Date r) <> w) -> t = 0%Q).
Proof.
  cbv zeta. apply weekly_series_spec. discriminate.
Defined.

(** ** Log store: loading *)

Section LogStoreFacts.

Context {fmt : DateFormat}.

Lemma parse_write_row (a : Activity) :
  round_trips (Date a) -> parse_row (write_row a) = Some a.
Proof.
  unfold round_trips, parse_row, write_row. simpl. intros ->. now destruct a.
Qed.

Lemma parse_rows_app (rows1 rows2 : list Row) :
  parse_rows (rows1 ++ rows2) =
  match parse_rows rows1, parse_rows rows2 with
  | Some df1, Some df2 => Some (df1 ++ df2)
  | _, _ => None
  end.
Proof.
  induction rows1 as [|row rows1 IH]; simpl.
  - now destruct (parse_rows rows2).
  - rewrite IH. destruct (parse_row row); [|reflexivity].
    destruct (parse_rows rows1); [|reflexivity].
    now destruct (parse_rows rows2).
Qed.

Lemma parse_rows_written (df : list Activity) :
  Forall (fun a => round_trips (Date a)) df ->
  parse_rows (map write_row df) = Some df.
Proof.
  induction 1 as [|a df Ha _ IH]; simpl; [reflexivity|].
  now rewrite (parse_write_row a Ha), IH.
Qed.

Lemma parse_rows_bad (rows : list Row) :
  Exists (fun row => to_datetime (Date_text row) = None) rows ->
  parse_rows rows = None.
Proof.
  induction 1 as [row rows Hbad | row rows _ IH]; simpl.
  - unfold parse_row. now rewrite Hbad.
  - rewrite IH. now destruct (parse_row row).
Qed.

Lemma parse_rows_length (rows : list Row) (df : list Activity) :
  parse_rows rows = Some df -> List.length df = List.length rows.
Proof.
  revert df. induction rows as [|row rows IH]; simpl; intros df.
  - now intros [= <-].
  - destruct (parse_row row); [|discriminate].
    destruct (parse_rows rows) as [df'|]; [|discriminate].
    intros [= <-]. simpl. f_equal. now apply IH.
Qed.

(** A frame is returned only when every row parsed, and then it has one
    row for each line of the file. *)
Lemma load_data_all_rows (rows : list Row) (df : list Activity) :
  load_data (Some rows) = Frame df ->
  List.length df = List.length rows
  /\ Forall (fun row => to_datetime (Date_text row) <> None) rows.
Proof.
  unfold load_data. destruct (parse_rows rows) as [df'|] eqn:E; [|discriminate].
  intros [= <-]. split; [now apply parse_rows_length|].
  apply Forall_forall. intros row Hin Hnone.
  rewrite parse_rows_bad in E; [discriminate|].
  apply Exists_exists. now exists row.
Qed.

(** ** Log store: appending *)

(** C3: when the file loads as [S] and the date of the new record reads
    back from its written text, the add form rewrites the file as its
    former lines followed by the line of the new record, and loading then
    gives [S] followed by the record. *)
Theorem append_round_trip (store : Store) (S : list Activity) (r : Activity) :
  load_data store = Frame S ->
  round_trips (Date r) ->
  load_data (fst (add_new_activity_form store r)) = Frame (S ++ [r])
  /\ snd (add_new_activity_form store r) = Added
  /\ exists rows, store = Some rows
                  /\ fst (add_new_activity_form store r) = Some (rows ++ [write_row r]).
Proof.
  intros Hload Hr. destruct store as [rows|]; [|discriminate].
  simpl in *. destruct (parse_rows rows) as [df|] eqn:E; [|discriminate].
  injection Hload as ->. split; [|split; [reflexivity | now exists rows]].
  rewrite parse_rows_app, E. simpl. now rewrite (parse_write_row r Hr).
Qed.

End LogStoreFacts.

(** ** Index labels, sorting and dropping *)

Lemma has_label_In (labels : list nat) (l : nat) :
  has_label labels l = true <-> In l labels.
Proof.
  unfold has_label. rewrite existsb_exists. split.
  - intros [x [Hin E]]. apply Nat.eqb_eq in E. now subst.
  - intros Hin. exists l. split; [exact Hin | apply Nat.eqb_refl].
Qed.

Lemma range_index_labels (df : list Activity) :
  map fst (range_index df) = seq 0 (List.length df).
Proof.
  unfold range_index. generalize 0%nat.
  induction df as [|r df IH]; intros n; simpl; [reflexivity|]. now rewrite IH.
Qed.

Lemma range_index_rows (df : list Activity) : map snd (range_index df) = df.
Proof.
  unfold range_index. generalize 0%nat.
  induction df as [|r df IH]; intros n; simpl; [reflexivity|]. now rewrite IH.
Qed.

Lemma insert_desc_perm (x : nat * Activity) (df : Indexed) :
  Permutation (insert_desc x df) (x :: df).
Proof.
  induction df as [|y df IH]; simpl; [reflexivity|].
  destruct (Date (snd y) <=? Date (snd x)); [reflexivity|].
  rewrite IH. apply perm_swap.
Qed.

Lemma sort_values_perm (df : Indexed) : Permutation (sort_values df) df.
Proof.
  induction df as [|x df IH]; simpl; [reflexivity|].
  rewrite insert_desc_perm. now constructor.
Qed.

(** A frame that is already newest first is left as it is. *)
Lemma sort_values_sorted (df : Indexed) :
  StronglySorted (fun a b => Date (snd b) <= Date (snd a)) df -> sort_values df = df.
Proof.
  induction 1 as [|x df Hs IH Hall]; simpl; [reflexivity|].
  rewrite IH. destruct df as [|y df]; simpl; [reflexivity|].
  inversion Hall as [|? ? Hy _]; subst.
  apply Z.leb_le in Hy. now rewrite Hy.
Qed.

Lemma range_index_sorted (df : list Activity) :
  StronglySorted (fun a b => Date b <= Date a) df ->
  StronglySorted (fun a b => Date (snd b) <= Date (snd a)) (range_index df).
Proof.
  unfold range_index. generalize 0%nat. intros n Hs. revert n.
  induction Hs as [|a df _ IH Hall]; intros n; simpl; constructor.
  - apply IH.
  - apply Forall_forall. intros [l b] Hin. apply in_combine_r in Hin.
    rewrite Forall_forall in Hall. now apply Hall.
Qed.

Lemma drop_present (labels : list nat) (df : Indexed) :
  Forall (fun l => In l (map fst df)) labels ->
  drop labels df = Some (filter (fun p => negb (has_label labels (fst p))) df).
Proof.
  intros Hall. unfold drop.
  assert (forallb (has_label (map fst df)) labels = true) as ->; [|reflexivity].
  apply forallb_forall. intros l Hl. apply has_label_In.
  rewrite Forall_forall in Hall. now apply Hall.
Qed.

Lemma main_df_labels (df : list Activity) (l : nat) :
  In l (map fst (sort_values (range_index df))) <-> (l < List.length df)%nat.
Proof.
  assert (Hp : Permutation (map fst (sort_values (range_index df)))
                           (seq 0 (List.length df))).
  { rewrite <- range_index_labels. apply Permutation_map, sort_values_perm. }
  split.
  - intros Hin. apply (Permutation_in _ Hp), in_seq in Hin. lia.
  - intros Hlt. apply (Permutation_in _ (Permutation_sym Hp)), in_seq. lia.
Qed.

(** ** Log store: deleting *)

Section DeleteFacts.

Context {fmt : DateFormat}.

(** What a delete request does: the rows it removes are those whose label,
  the position in the file, is selected; the survivors are written in the
  order of the sorted frame. *)
Lemma delete_form_effect (store : Store) (S : list Activity) (P : list nat) :
load_data store = Frame S ->
valid_positions (List.length S) P ->
Forall (fun a => round_trips (Date a)) S ->
let survivors :=
  map snd (filter (fun p => negb (has_label P (fst p))) (main_df S)) in
delete_form store P = (to_csv survivors, Deleted (List.length P))
/\ load_data (to_csv survivors) = Frame survivors.
Proof.
intros Hload [Hne [_ Hlt]] Hrt. cbv zeta. unfold delete_form. rewrite Hload.
destruct P as [|i P]; [now elim Hne|].
destruct (main_df S) as [|x df] eqn:Edf.
{ inversion Hlt as [|? ? Hi _]; subst.
  apply (main_df_labels S i) in Hi. unfold main_df in Edf.
  rewrite Edf in Hi. contradiction. }
rewrite <- Edf. rewrite drop_present.
- split; [reflexivity|]. unfold to_csv, load_data.
  rewrite parse_rows_written; [reflexivity|].
  apply Forall_forall. intros a Ha. apply in_map_iff in Ha.
  destruct Ha as [[l a'] [<- Hin]]. apply filter_In in Hin. destruct Hin as [Hin _].
  rewrite Forall_forall in Hrt. apply Hrt.
  apply (Permutation_in _ (sort_values_perm _)) in Hin.
  rewrite <- (range_index_rows S). now apply (in_map snd) in Hin.
- eapply Forall_impl; [|exact Hlt]. intros l Hl. now apply main_df_labels.
Qed.

(** When the file is already in the order of the display (newest first) the
  labels are the displayed positions, and the survivors are the rows at the
  positions that were not selected. *)
Lemma delete_form_sorted_file (store : Store) (S : list Activity) (P : list nat) :
load_data store = Frame S ->
valid_positions (List.length S) P ->
Forall (fun a => round_trips (Date a)) S ->
StronglySorted (fun a b => Date b <= Date a) S ->
map snd (df_display S) = S
/\ load_data (fst (delete_form store P)) = Frame (without_positions P S).
Proof.
intros Hload Hvalid Hrt Hsorted.
assert (Hmain : main_df S = range_index S).
{ unfold main_df. now apply sort_values_sorted, range_index_sorted. }
split.
- unfold df_display, reset_index. now rewrite range_index_rows, Hmain, range_index_rows.
- destruct (delete_form_effect store S P Hload Hvalid Hrt) as [-> Hl].
  simpl fst. rewrite Hl, Hmain. reflexivity.
Qed.

(** C10: a delete request with no position selected leaves the file as it
  is; when the frame has rows the form only shows the warning. *)
Theorem delete_nothing (store : Store) :
fst (delete_form store []) = store
/\ forall S, load_data store = Frame S -> S <> [] ->
             snd (delete_form store []) = NothingSelected.
Proof.
unfold delete_form. split.
- destruct (load_data store) as [S|e]; [|reflexivity].
  now destruct (main_df S).
- intros S -> Hne. destruct (main_df S) as [|x df] eqn:E; [|reflexivity].
  destruct S as [|r S]; [now elim Hne|].
  assert (Hin : In 0%nat (map fst (main_df (r :: S)))).
  { apply main_df_labels. simpl. lia. }
  rewrite E in Hin. contradiction.
Qed.

End DeleteFacts.

(** ** The delete request on a file that is not in display order *)

(** C1, evaluated: the file holds the rows of 2024-01-01, 2024-01-03 and
    2024-01-10 in this order, so the display shows them newest first.
    Selecting position 0 of the display, the row of 2024-01-10, removes the
    row of 2024-01-01 instead, the row whose position in the file is 0; the
    file is rewritten newest first.  The result is neither the display
    without its position 0 nor the loaded sequence without its position 0 in
    file order. *)
Theorem delete_removes_wrong_row :
  let r0 := mkActivity 19723 "A" 2 in
  let r1 := mkActivity 19725 "A" 1 in
  let r2 := mkActivity 19732 "B" 3 in
  let store := Some [mkRow "2024-01-01" "A" 2; mkRow "2024-01-03" "A" 1;
                     mkRow "2024-01-10" "B" 3] in
  @load_data iso_format store = Frame [r0; r1; r2]
  /\ df_display [r0; r1; r2] = [(0, r2); (1, r1); (2, r0)]%nat
  /\ @load_data iso_format (fst (@delete_form iso_format store [0%nat]))
     = Frame [r2; r1]
  /\ without_positions [0%nat] [r2; r1; r0] = [r1; r0]
  /\ without_positions [0%nat] [r0; r1; r2] = [r1; r2].
Proof.
  cbv zeta. repeat split; vm_compute; reflexivity.
Qed.

Lemma append_round_trip_witness :
  let store := Some [mkRow "2024-01-01" "A" 2; mkRow "2024-01-03" "A" 1;
                     mkRow "2024-01-10" "B" 3] in
  let r := mkActivity 19754 "C" 5 in
  @load_data iso_format (fst (@add_new_activity_form iso_format store r))
  = Frame [mkActivity 19723 "A" 2; mkActivity 19725 "A" 1; mkActivity 19732 "B" 3; r].
Proof.
  cbv zeta.
  apply (@append_round_trip iso_format
           (Some [mkRow "2024-01-01" "A" 2; mkRow "2024-01-03" "A" 1;
                  mkRow "2024-01-10" "B" 3])
           [mkActivity 19723 "A" 2; mkActivity 19725 "A" 1; mkActivity 19732 "B" 3]
           (mkActivity 19754 "C" 5)).
  - reflexivity.
  - reflexivity.
Defined.

Lemma delete_nothing_witness :
  let store := Some [mkRow "2024-01-01" "A" 2; mkRow "2024-01-03" "A" 1] in
  snd (@delete_form iso_format store []) = NothingSelected.
Proof.
  cbv zeta.
  apply (proj2 (@delete_nothing iso_format _)
           [mkActivity 19723 "A" 2; mkActivity 19725 "A" 1]).
  - reflexivity.
  - discriminate.
Defined.

(** ** Further properties of the summary *)

Lemma filter_perm {A : Type} (f : A -> bool) (l l' : list A) :
  Permutation l l' -> Permutation (filter f l) (filter f l').
Proof.
  induction 1 as [|x l l' _ IH|x y l|l l' l'' _ IH1 _ IH2]; simpl.
  - constructor.
  - destruct (f x); [now constructor | exact IH].
  - destruct (f x), (f y); try reflexivity. apply perm_swap.
  - now transitivity (filter f l').
Qed.

Lemma str_sorted_NoDup (l : list string) : StronglySorted str_lt l -> NoDup l.
Proof.
  induction 1 as [|a l _ IH Hall]; constructor; [|exact IH].
  intros Hin. rewrite Forall_forall in Hall. exact (str_lt_irrefl a (Hall a Hin)).
Qed.

(** X1: every group of the summary carries the sum of the hours of the rows
    of its category, its category occurs in the frame, and no category has
    two groups. *)
Theorem summary_groups_correct (df : list Activity) :
  NoDup (map fst (fst (get_time_summary df)))
  /\ forall k t, In (k, t) (fst (get_time_summary df)) ->
                 In k (map Category df) /\ (t == hours_of k df)%Q.
Proof.
  destruct (get_time_summary_cases df) as [[-> _] | [-> _]]; simpl.
  - split; [constructor | contradiction].
  - split; [apply str_sorted_NoDup, groupby_sum_sorted|].
    intros k t Hin. split; [|now apply groupby_sum_group].
    apply groupby_sum_keys. change k with (fst (k, t)). now apply in_map.
Qed.

(** ** The period tabs *)

Lemma script_rows_perm (loaded : list Activity) :
  Permutation (script_rows loaded) loaded.
Proof.
  unfold script_rows, main_df.
  rewrite <- (range_index_rows loaded) at 2.
  apply Permutation_map, sort_values_perm.
Qed.

Lemma df_filtered_perm (today : Z) (tab : Tab) (df df' : list Activity) :
  Permutation df df' ->
  Permutation (df_filtered today tab df) (df_filtered today tab df').
Proof.
  intros Hp. destruct tab; simpl; try exact Hp; now apply filter_perm.
Qed.

Lemma df_filtered_In (today : Z) (tab : Tab) (df : list Activity) (r : Activity) :
  In r (df_filtered today tab df) <->
  In r df /\ match tab with
             | Last7 => today - 7 <= Date r
             | Last30 => today - 30 <= Date r
             | Last5Months => today - 150 <= Date r
             | AllTime => True
             end.
Proof.
  destruct tab; simpl; rewrite ?filter_from_In; tauto.
Qed.

(** X5: the tabs have a lower bound only.  A row of the last 7 days is in
    the frame of every tab, and so is a row dated after today; the frame of
    each tab is contained in the frame of the next longer one. *)
Theorem tab_rows_nest (today : Z) (df : list Activity) (r : Activity) :
  (In r df -> today - 7 <= Date r -> forall tab, In r (df_filtered today tab df))
  /\ (In r (df_filtered today Last7 df) -> In r (df_filtered today Last30 df))
  /\ (In r (df_filtered today Last30 df) -> In r (df_filtered today Last5Months df))
  /\ (In r (df_filtered today Last5Months df) -> In r (df_filtered today AllTime df)).
Proof.
  repeat split.
  - intros Hin Hd tab. apply df_filtered_In. split; [exact Hin|]. destruct tab; lia.
  - rewrite !df_filtered_In. intros [? ?]. split; [assumption | lia].
  - rewrite !df_filtered_In. intros [? ?]. split; [assumption | lia].
  - rewrite !df_filtered_In. intros [? ?]. split; [assumption | exact I].
Qed.

(** ** Further properties of the weekly series *)

Lemma min_date_perm (df df' : list Activity) :
  Permutation df df' -> min_date df = min_date df'.
Proof.
  intros Hp.
  destruct (min_date df) as [m|] eqn:E; destruct (min_date df') as [m'|] eqn:E'.
  - destruct (min_date_In df m E) as [r [Hr <-]].
    destruct (min_date_In df' m' E') as [r' [Hr' <-]].
    pose proof (min_date_le df _ r' E (Permutation_in _ (Permutation_sym Hp) Hr')).
    pose proof (min_date_le df' _ r E' (Permutation_in _ Hp Hr)).
    f_equal. lia.
  - destruct df' as [|x df']; [|discriminate].
    apply Permutation_sym, Permutation_nil in Hp. subst. discriminate.
  - destruct df as [|x df]; [|discriminate].
    apply Permutation_nil in Hp. subst. discriminate.
  - reflexivity.
Qed.

Lemma max_date_perm (df df' : list Activity) :
  Permutation df df' -> max_date df = max_date df'.
Proof.
  intros Hp.
  destruct (max_date df) as [m|] eqn:E; destruct (max_date df') as [m'|] eqn:E'.
  - destruct (max_date_In df m E) as [r [Hr <-]].
    destruct (max_date_In df' m' E') as [r' [Hr' <-]].
    pose proof (max_date_ge df _ r' E (Permutation_in _ (Permutation_sym Hp) Hr')).
    pose proof (max_date_ge df' _ r E' (Permutation_in _ Hp Hr)).
    f_equal. lia.
  - destruct df' as [|x df']; [|discriminate].
    apply Permutation_sym, Permutation_nil in Hp. subst. discriminate.
  - destruct df as [|x df]; [|discriminate].
    apply Permutation_nil in Hp. subst. discriminate.
  - reflexivity.
Qed.

(** ** Further properties of the sorted frame *)

Lemma insert_desc_sorted (x : nat * Activity) (df : Indexed) :
  StronglySorted (fun a b => Date (snd b) <= Date (snd a)) df ->
  StronglySorted (fun a b => Date (snd b) <= Date (snd a)) (insert_desc x df).
Proof.
  induction 1 as [|y df Hs IH Hall]; simpl.
  - constructor; constructor.
  - destruct (Date (snd y) <=? Date (snd x)) eqn:E.
    + apply Z.leb_le in E. constructor; [now constructor|].
      constructor; [exact E|].
      eapply Forall_impl; [|exact Hall]. cbv beta. intros z Hz. lia.
    + apply Z.leb_gt in E. constructor; [exact IH|].
      apply Forall_forall. intros z Hz.
      apply (Permutation_in _ (insert_desc_perm x df)) in Hz.
      destruct Hz as [<- | Hz]; [lia|].
      rewrite Forall_forall in Hall. now apply Hall.
Qed.

Lemma sort_values_desc (df : Indexed) :
  StronglySorted (fun a b => Date (snd b) <= Date (snd a)) (sort_values df).
Proof.
  induction df as [|x df IH]; simpl; [constructor | now apply insert_desc_sorted].
Qed.

Lemma sorted_filter {A : Type} (R : A -> A -> Prop) (f : A -> bool) (l : list A) :
  StronglySorted R l -> StronglySorted R (filter f l).
Proof.
  induction 1 as [|a l _ IH Hall]; simpl; [constructor|].
  destruct (f a); [|exact IH]. constructor; [exact IH|].
  apply Forall_forall. intros b Hb. apply filter_In in Hb.
  rewrite Forall_forall in Hall. now apply Hall.
Qed.

Lemma sorted_rows (df : Indexed) :
  StronglySorted (fun a b => Date (snd b) <= Date (snd a)) df ->
  StronglySorted (fun a b => Date b <= Date a) (map snd df).
Proof.
  induction 1 as [|x df _ IH Hall]; simpl; constructor; [exact IH|].
  apply Forall_forall. intros b Hb. apply in_map_iff in Hb.
  destruct Hb as [y [<- Hy]]. rewrite Forall_forall in Hall. now apply Hall.
Qed.

Lemma range_index_nth (df : list Activity) (l : nat) (a : Activity) :
  In (l, a) (range_index df) -> nth_error df l = Some a.
Proof.
  unfold range_index.
  assert (H : forall n, In (l, a) (combine (seq n (List.length df)) df) ->
                        (n <= l)%nat /\ nth_error df (l - n) = Some a).
  { induction df as [|r df IH]; intros n; simpl; [contradiction|].
    intros [[= <- <-] | Hin].
    - rewrite Nat.sub_diag. split; [lia | reflexivity].
    - destruct (IH (S n) Hin) as [Hle Hnth]. split; [lia|].
      replace (l - n)%nat with (S (l - S n)) by lia. exact Hnth. }
  intros Hin. destruct (H 0%nat Hin) as [_ Hnth].
  now rewrite Nat.sub_0_r in Hnth.
Qed.

(** X10: the frame of the main script holds the loaded rows, each with its
    position in the file as its label, ordered newest first; the displayed
    table shows the same rows in the same order under the labels 0, 1, 2,
    and so on. *)
Theorem main_df_spec (loaded : list Activity) :
  Permutation (main_df loaded) (range_index loaded)
  /\ StronglySorted (fun a b => Date (snd b) <= Date (snd a)) (main_df loaded)
  /\ (forall l a, In (l, a) (main_df loaded) -> nth_error loaded l = Some a)
  /\ map snd (df_display loaded) = map snd (main_df loaded)
  /\ map fst (df_display loaded) = seq 0 (List.length loaded).
Proof.
  split; [apply sort_values_perm|]. split; [apply sort_values_desc|]. split.
  - intros l a Hin. apply range_index_nth.
    now apply (Permutation_in _ (sort_values_perm _)).
  - unfold df_display, reset_index. rewrite range_index_rows, range_index_labels.
    split; [reflexivity|]. f_equal. rewrite length_map. unfold main_df.
    rewrite (Permutation_length (sort_values_perm (range_index loaded))).
    unfold range_index. rewrite length_combine, length_seq. lia.
Qed.

(** ** Counting the rows that a delete request keeps *)

Lemma filter_split_length {A : Type} (f : A -> bool) (l : list A) :
  (List.length (filter f l) + List.length (filter (fun x => negb (f x)) l)
   = List.length l)%nat.
Proof.
  induction l as [|x l IH]; simpl; [reflexivity|].
  destruct (f x); simpl; lia.
Qed.

Lemma map_fst_filter (g : nat -> bool) (l : Indexed) :
  map fst (filter (fun p => g (fst p)) l) = filter g (map fst l).
Proof.
  induction l as [|x l IH]; simpl; [reflexivity|].
  destruct (g (fst x)); simpl; now rewrite IH.
Qed.

Lemma selected_count (P : list nat) (n : nat) :
  NoDup P -> Forall (fun i => (i < n)%nat) P ->
  List.length (filter (has_label P) (seq 0 n)) = List.length P.
Proof.
  intros Hnd Hlt. apply Permutation_length, NoDup_Permutation.
  - apply NoDup_filter, seq_NoDup.
  - exact Hnd.
  - intros x. rewrite filter_In, has_label_In, in_seq. split; [tauto|].
    intros Hin. split; [|exact Hin].
    rewrite Forall_forall in Hlt. specialize (Hlt x Hin). lia.
Qed.

Lemma kept_count (P : list nat) (df : Indexed) (n : nat) :
  Permutation (map fst df) (seq 0 n) ->
  NoDup P -> Forall (fun i => (i < n)%nat) P ->
  (List.length (filter (fun p => negb (has_label P (fst p))) df) + List.length P
   = List.length df)%nat.
Proof.
  intros Hp Hnd Hlt.
  rewrite <- (filter_split_length (fun p => has_label P (fst p)) df).
  rewrite Nat.add_comm. f_equal.
  rewrite <- (selected_count P n Hnd Hlt).
  rewrite <- (length_map fst), map_fst_filter.
  now apply Permutation_length, filter_perm.
Qed.

Lemma filter_none {A : Type} (f : A -> bool) (l : list A) :
  (forall x, In x l -> f x = false) -> filter f l = [].
Proof.
  induction l as [|x l IH]; intros Hall; simpl; [reflexivity|].
  rewrite (Hall x (or_introl eq_refl)). apply IH. intros y Hy. apply Hall. now right.
Qed.

Lemma without_last_position (S : list Activity) (r : Activity) (a : nat) :
  map snd (filter (fun p => negb (has_label [(a + List.length S)%nat] (fst p)))
             (combine (seq a (List.length (S ++ [r]))) (S ++ [r]))) = S.
Proof.
  revert a. induction S as [|x S IH]; intros a; simpl.
  - rewrite Nat.add_0_r, Nat.eqb_refl. reflexivity.
  - assert ((a =? a + Datatypes.S (List.length S))%nat = false) as ->
      by (apply Nat.eqb_neq; lia).
    simpl. f_equal.
    replace (a + Datatypes.S (List.length S))%nat
      with (Datatypes.S a + List.length S)%nat by lia.
    apply IH.
Qed.

(** ** Further properties of the log store *)

Section StoreFacts.

Context {fmt : DateFormat}.

Lemma parse_rows_columns (rows : list Row) (df : list Activity) :
  parse_rows rows = Some df ->
  map Category df = map Category_cell rows
  /\ map Hours df = map Hours_cell rows
  /\ map (fun a => Some (Date a)) df = map (fun row => to_datetime (Date_text row)) rows.
Proof.
  revert df. induction rows as [|row rows IH]; simpl; intros df.
  - intros [= <-]. repeat split.
  - unfold parse_row. destruct (to_datetime (Date_text row)) as [d|]; [|discriminate].
    destruct (parse_rows rows) as [df'|]; [|discriminate].
    intros [= <-]. destruct (IH df' eq_refl) as [Hc [Hh Hd]]. simpl.
    now rewrite Hc, Hh, Hd.
Qed.

Lemma parse_rows_good (rows : list Row) :
  Forall (fun row => to_datetime (Date_text row) <> None) rows ->
  exists df, parse_rows rows = Some df.
Proof.
  induction 1 as [|row rows Hrow _ [df IH]]; simpl.
  - now exists [].
  - unfold parse_row. destruct (to_datetime (Date_text row)) as [d|]; [|now elim Hrow].
    rewrite IH. eexists. reflexivity.
Qed.

(** X11: when the date of every line parses, [load_data] returns a frame
    with one row for each line, in file order, with the category and the
    hours of the line and the parsed date. *)
Theorem load_data_succeeds (rows : list Row) :
  Forall (fun row => to_datetime (Date_text row) <> None) rows ->
  exists df,
    load_data (Some rows) = Frame df
    /\ List.length df = List.length rows
    /\ map Category df = map Category_cell rows
    /\ map Hours df = map Hours_cell rows
    /\ map (fun a => Some (Date a)) df = map (fun row => to_datetime (Date_text row)) rows.
Proof.
  intros Hgood. destruct (parse_rows_good rows Hgood) as [df E].
  exists df. unfold load_data. rewrite E.
  split; [reflexivity|]. split; [now apply parse_rows_length|].
  now apply parse_rows_columns.
Qed.

(** X12: the add form does not read the dates of the file.  Without a file
    it shows the read error and creates nothing; on a file with a date that
    does not parse it reports success, and the file still fails to load
    afterwards. *)
Theorem append_does_not_check (r : Activity) :
  add_new_activity_form None r = (None, CsvReadError)
  /\ forall rows,
       load_data (Some rows) = Stopped ParseFailure ->
       snd (add_new_activity_form (Some rows) r) = Added
       /\ load_data (fst (add_new_activity_form (Some rows) r)) = Stopped ParseFailure.
Proof.
  split; [reflexivity|]. intros rows Hload. split; [reflexivity|].
  simpl in *. rewrite parse_rows_app.
  destruct (parse_rows rows); [discriminate | reflexivity].
Qed.

Lemma load_after_append (store : Store) (S : list Activity) (r : Activity) :
  load_data store = Frame S ->
  round_trips (Date r) ->
  load_data (fst (add_new_activity_form store r)) = Frame (S ++ [r]).
Proof.
  intros Hload Hr. destruct store as [rows|]; [|discriminate].
  simpl in *. destruct (parse_rows rows) as [df|] eqn:E; [|discriminate].
  injection Hload as ->.
  rewrite parse_rows_app, E. simpl. now rewrite (parse_write_row r Hr).
Qed.

Lemma delete_form_survivors (store : Store) (S : list Activity) (P : list nat) :
  load_data store = Frame S ->
  valid_positions (List.length S) P ->
  Forall (fun a => round_trips (Date a)) S ->
  exists survivors,
    load_data (fst (delete_form store P)) = Frame survivors
    /\ snd (delete_form store P) = Deleted (List.length P)
    /\ Permutation survivors (without_positions P S)
    /\ (List.length survivors + List.length P = List.length S)%nat
    /\ StronglySorted (fun a b => Date b <= Date a) survivors.
Proof.
  intros Hload Hvalid Hrt.
  destruct (delete_form_effect store S P Hload Hvalid Hrt) as [E Hl].
  destruct Hvalid as [_ [Hnd Hlt]].
  eexists. rewrite E. simpl fst. simpl snd.
  split; [exact Hl|]. split; [reflexivity|]. split; [|split].
  - unfold without_positions. apply Permutation_map, filter_perm.
    apply sort_values_perm.
  - rewrite length_map. unfold main_df.
    rewrite (kept_count P _ (List.length S)); auto.
    + rewrite (Permutation_length (sort_values_perm (range_index S))).
      unfold range_index. rewrite length_combine, length_seq. lia.
    + rewrite <- range_index_labels. apply Permutation_map, sort_values_perm.
  - apply sorted_rows, sorted_filter, sort_values_desc.
Qed.

(** X13: a delete request with valid positions removes the rows whose
    position in the file is selected: the file then loads as the rows at the
    file positions that were not selected, in some order, their number being
    the former number less the number of positions, which is the number the
    form reports. *)
Theorem delete_removes_file_positions (store : Store) (S : list Activity) (P : list nat) :
  load_data store = Frame S ->
  valid_positions (List.length S) P ->
  Forall (fun a => round_trips (Date a)) S ->
  exists survivors,
    load_data (fst (delete_form store P)) = Frame survivors
    /\ snd (delete_form store P) = Deleted (List.length P)
    /\ Permutation survivors (without_positions P S)
    /\ (List.length survivors + List.length P = List.length S)%nat.
Proof.
  intros Hload Hvalid Hrt.
  destruct (delete_form_survivors store S P Hload Hvalid Hrt)
    as [survivors [H1 [H2 [H3 [H4 _]]]]].
  exists survivors. auto.
Qed.

(** X14: a delete request rewrites the file newest first, whatever the order
    of its lines was. *)
Theorem delete_writes_newest_first (store : Store) (S : list Activity) (P : list nat) :
  load_data store = Frame S ->
  valid_positions (List.length S) P ->
  Forall (fun a => round_trips (Date a)) S ->
  exists survivors,
    load_data (fst (delete_form store P)) = Frame survivors
    /\ StronglySorted (fun a b => Date b <= Date a) survivors.
Proof.
  intros Hload Hvalid Hrt.
  destruct (delete_form_survivors store S P Hload Hvalid Hrt)
    as [survivors [H1 [_ [_ [_ H5]]]]].
  exists survivors. auto.
Qed.

(** X15: on a file whose lines are in strictly descending order of date the
    displayed table is the file, and a delete request removes exactly the
    displayed rows that were selected, keeping the order of the others. *)
Theorem delete_on_descending_file (store : Store) (S : list Activity) (P : list nat) :
  load_data store = Frame S ->
  valid_positions (List.length S) P ->
  Forall (fun a => round_trips (Date a)) S ->
  StronglySorted (fun a b => Date b < Date a) S ->
  map snd (df_display S) = S
  /\ load_data (fst (delete_form store P)) = Frame (without_positions P S).
Proof.
  intros Hload Hvalid Hrt Hs.
  apply delete_form_sorted_file; auto.
  clear -Hs. induction Hs as [|a S _ IH Hall]; constructor; [exact IH|].
  eapply Forall_impl; [|exact Hall]. cbv beta. intros b Hb. lia.
Qed.

(** X16: selecting every position empties the file; the empty file loads as
    the empty frame, and on it the delete form is not shown at all. *)
Theorem delete_every_row (store : Store) (S : list Activity) :
  load_data store = Frame S ->
  S <> [] ->
  delete_form store (seq 0 (List.length S)) = (Some [], Deleted (List.length S))
  /\ load_data (Some []) = Frame []
  /\ forall P, delete_form (Some []) P = (Some [], NoData).
Proof.
  intros Hload Hne. split; [|split; reflexivity].
  unfold delete_form. rewrite Hload.
  destruct (main_df S) as [|x df] eqn:Edf.
  { destruct S as [|r S]; [now elim Hne|].
    assert (Hin : In 0%nat (map fst (main_df (r :: S))))
      by (apply main_df_labels; simpl; lia).
    rewrite Edf in Hin. contradiction. }
  rewrite <- Edf.
  destruct (seq 0 (List.length S)) as [|i P] eqn:Eseq.
  { destruct S; [now elim Hne | discriminate]. }
  rewrite <- Eseq. rewrite drop_present.
  - rewrite length_seq.
    assert (filter (fun p => negb (has_label (seq 0 (List.length S)) (fst p))) (main_df S)
            = []) as ->; [|reflexivity].
    apply filter_none. intros p Hp. apply negb_false_iff, has_label_In, in_seq.
    assert (fst p < List.length S)%nat; [|lia].
    apply main_df_labels. now apply in_map.
  - apply Forall_forall. intros l Hl. apply in_seq in Hl.
    apply main_df_labels. lia.
Qed.

(** X17: adding a record and then deleting the row at the file position of
    the new line leaves the former rows, the file being rewritten newest
    first. *)
Theorem append_then_delete_appended (store : Store) (S : list Activity) (r : Activity) :
  load_data store = Frame S ->
  round_trips (Date r) ->
  Forall (fun a => round_trips (Date a)) S ->
  exists survivors,
    load_data (fst (delete_form (fst (add_new_activity_form store r)) [List.length S]))
    = Frame survivors
    /\ Permutation survivors S
    /\ StronglySorted (fun a b => Date b <= Date a) survivors.
Proof.
  intros Hload Hr Hrt.
  pose proof (load_after_append store S r Hload Hr) as Hload'.
  assert (Hvalid : valid_positions (List.length (S ++ [r])) [List.length S]).
  { repeat split; [discriminate | repeat constructor; now intros [] |].
    constructor; [|constructor]. rewrite length_app. simpl. lia. }
  assert (Hrt' : Forall (fun a => round_trips (Date a)) (S ++ [r])).
  { apply Forall_app. split; [exact Hrt | now constructor]. }
  destruct (delete_form_survivors _ _ _ Hload' Hvalid Hrt')
    as [survivors [H1 [_ [H3 [_ H5]]]]].
  exists survivors. split; [exact H1|]. split; [|exact H5].
  pose proof (without_last_position S r 0) as E. simpl Nat.add in E.
  unfold without_positions in H3. now rewrite E in H3.
Qed.

End StoreFacts.

(** ** Instances on the ISO date format *)

Lemma load_data_succeeds_witness :
  exists df,
    @load_data iso_format
      (Some [mkRow "2024-01-01" "A" 2; mkRow "2024-01-03" "A" 1]) = Frame df
    /\ List.length df = 2%nat
    /\ map Category df = ["A"; "A"]%string
    /\ map Hours df = [2%Q; 1%Q]
    /\ map (fun a => Some (Date a)) df = [Some 19723; Some 19725].
Proof.
  apply (@load_data_succeeds iso_format
           [mkRow "2024-01-01" "A" 2; mkRow "2024-01-03" "A" 1]).
  repeat (constructor; [discriminate|]). constructor.
Defined.

Lemma delete_removes_file_positions_witness :
  let S := [mkActivity 19723 "A" 2; mkActivity 19725 "A" 1; mkActivity 19732 "B" 3] in
  let store := Some [mkRow "2024-01-01" "A" 2; mkRow "2024-01-03" "A" 1;
                     mkRow "2024-01-10" "B" 3] in
  exists survivors,
    @load_data iso_format (fst (@delete_form iso_format store [0%nat])) = Frame survivors
    /\ snd (@delete_form iso_format store [0%nat]) = Deleted 1
    /\ Permutation survivors (without_positions [0%nat] S)
    /\ (List.length survivors + 1 = 3)%nat.
Proof.
  cbv zeta.
  apply (@delete_removes_file_positions iso_format
           (Some [mkRow "2024-01-01" "A" 2; mkRow "2024-01-03" "A" 1;
                  mkRow "2024-01-10" "B" 3])
           [mkActivity 19723 "A" 2; mkActivity 19725 "A" 1; mkActivity 19732 "B" 3]
           [0%nat]).
  - reflexivity.
  - split; [discriminate|]. split.
    + constructor; [intros []|constructor].
    + constructor; [simpl; lia|constructor].
  - repeat (constructor; [reflexivity|]). constructor.
Defined.

Lemma delete_writes_newest_first_witness :
  let store := Some [mkRow "2024-01-01" "A" 2; mkRow "2024-01-03" "A" 1;
                     mkRow "2024-01-10" "B" 3] in
  exists survivors,
    @load_data iso_format (fst (@delete_form iso_format store [1%nat])) = Frame survivors
    /\ StronglySorted (fun a b => Date b <= Date a) survivors.
Proof.
  cbv zeta.
  apply (@delete_writes_newest_first iso_format
           (Some [mkRow "2024-01-01" "A" 2; mkRow "2024-01-03" "A" 1;
                  mkRow "2024-01-10" "B" 3])
           [mkActivity 19723 "A" 2; mkActivity 19725 "A" 1; mkActivity 19732 "B" 3]
           [1%nat]).
  - reflexivity.
  - split; [discriminate|]. split.
    + constructor; [intros []|constructor].
    + constructor; [simpl; lia|constructor].
  - repeat (constructor; [reflexivity|]). constructor.
Defined.

Lemma delete_on_descending_file_witness :
  let S := [mkActivity 19732 "B" 3; mkActivity 19725 "A" 1; mkActivity 19723 "A" 2] in
  let store := Some [mkRow "2024-01-10" "B" 3; mkRow "2024-01-03" "A" 1;
                     mkRow "2024-01-01" "A" 2] in
  map snd (df_display S) = S
  /\ @load_data iso_format (fst (@delete_form iso_format store [0%nat]))
     = Frame (without_positions [0%nat] S).
Proof.
  cbv zeta.
  apply (@delete_on_descending_file iso_format
           (Some [mkRow "2024-01-10" "B" 3; mkRow "2024-01-03" "A" 1;
                  mkRow "2024-01-01" "A" 2])).
  - reflexivity.
  - split; [discriminate|]. split.
    + constructor; [intros []|constructor].
    + constructor; [simpl; lia|constructor].
  - repeat (constructor; [reflexivity|]). constructor.
  - repeat (constructor; [|repeat (constructor; [simpl; lia|]); constructor]).
    constructor.
Defined.

Lemma delete_every_row_witness :
  let store := Some [mkRow "2024-01-01" "A" 2; mkRow "2024-01-03" "A" 1] in
  @delete_form iso_format store (seq 0 2) = (Some [], Deleted 2)
  /\ @load_data iso_format (Some []) = Frame []
  /\ forall P, @delete_form iso_format (Some []) P = (Some [], NoData).
Proof.
  cbv zeta.
  apply (@delete_every_row iso_format
           (Some [mkRow "2024-01-01" "A" 2; mkRow "2024-01-03" "A" 1])
           [mkActivity 19723 "A" 2; mkActivity 19725 "A" 1]).
  - reflexivity.
  - discriminate.
Defined.

Lemma append_then_delete_appended_witness :
  let S := [mkActivity 19723 "A" 2; mkActivity 19725 "A" 1] in
  let store := Some [mkRow "2024-01-01" "A" 2; mkRow "2024-01-03" "A" 1] in
  exists survivors,
    @load_data iso_format
      (fst (@delete_form iso_format
              (fst (@add_new_activity_form iso_format store (mkActivity 19754 "C" 5)))
              [2%nat]))
    = Frame survivors
    /\ Permutation survivors S
    /\ StronglySorted (fun a b => Date b <= Date a) survivors.
Proof.
  cbv zeta.
  apply (@append_then_delete_appended iso_format
           (Some [mkRow "2024-01-01" "A" 2; mkRow "2024-01-03" "A" 1])
           [mkActivity 19723 "A" 2; mkActivity 19725 "A" 1]
           (mkActivity 19754 "C" 5)).
  - reflexivity.
  - reflexivity.
  - repeat (constructor; [reflexivity|]). constructor.
Defined.

(** ** The totals in binary64 *)

Module Binary64_facts.

Import PrimFloat.
Import Binary64.
#[local] Set Warnings "-inexact-float".

(** The fuel of the pairwise summation never runs out: any fuel of at least
    the length of the list gives the same sum. *)
Lemma pairwise_sum_fuel (fuel1 fuel2 : nat) (l : list float) :
  (List.length l <= fuel1)%nat -> (List.length l <= fuel2)%nat ->
  pairwise_sum fuel1 l = pairwise_sum fuel2 l.
Proof.
  revert fuel2 l. induction fuel1 as [|f1 IH]; intros fuel2 l H1 H2.
  - destruct l; [|simpl in H1; lia]. now destruct fuel2.
  - destruct fuel2 as [|f2].
    + destruct l; [reflexivity | simpl in H2; lia].
    + cbn [pairwise_sum].
      destruct (List.length l <? 8)%nat eqn:E8; [reflexivity|].
      destruct (List.length l <=? 128)%nat eqn:E128; [reflexivity|].
      apply Nat.leb_gt in E128.
      set (n := List.length l) in *. set (h := (n / 2)%nat).
      assert (Hh : (64 <= h < n)%nat).
      { unfold h. split.
        - apply Nat.div_le_lower_bound; lia.
        - apply Nat.div_lt; lia. }
      pose proof (Nat.mod_upper_bound h 8 ltac:(lia)) as Hm.
      assert (Hle : (h mod 8 <= h)%nat) by (apply Nat.Div0.mod_le).
      f_equal; apply IH; rewrite ?length_firstn, ?length_skipn; fold n; lia.
Qed.

(** Above 128 elements the sum is the sum of the two parts. *)
Lemma pairwise_sum_split (l : list float) :
  (128 < List.length l)%nat ->
  let n2 := (List.length l / 2 - (List.length l / 2) mod 8)%nat in
  pairwise_sum (List.length l) l
  = (pairwise_sum (List.length (firstn n2 l)) (firstn n2 l)
     + pairwise_sum (List.length (skipn n2 l)) (skipn n2 l))%float.
Proof.
  intros Hn n2. destruct (List.length l) as [|m] eqn:E; [lia|].
  cbn [pairwise_sum]. rewrite E.
  assert ((S m <? 8)%nat = false) as -> by (apply Nat.ltb_ge; lia).
  assert ((S m <=? 128)%nat = false) as -> by (apply Nat.leb_gt; lia).
  fold n2.
  assert (Hh : (64 <= S m / 2 < S m)%nat).
  { split; [apply Nat.div_le_lower_bound; lia | apply Nat.div_lt; lia]. }
  pose proof (Nat.mod_upper_bound (S m / 2) 8 ltac:(lia)) as Hm.
  assert (Hle : ((S m / 2) mod 8 <= S m / 2)%nat) by (apply Nat.Div0.mod_le).
  f_equal; apply pairwise_sum_fuel;
    rewrite ?length_firstn, ?length_skipn, ?E; unfold n2; lia.
Qed.


















End Binary64_facts.

(** ** Loading a file with missing dates *)

Section MissingDateFacts.

Context {fmt : DateFormat}.

Lemma date_cell_raises (s : string) :
  date_cell s = None <-> is_missing s = false /\ to_datetime s = None.
Proof.
  unfold date_cell. destruct (is_missing s).
  - split; [discriminate | intros [? _]; discriminate].
  - destruct (to_datetime s); split; try discriminate; auto.
    intros [_ ?]. discriminate.
Qed.

Lemma parse_rows_na_bad (rows : list Row) :
  Exists (fun row => date_cell (Date_text row) = None) rows ->
  parse_rows_na rows = None.
Proof.
  induction 1 as [row rows Hbad | row rows _ IH]; simpl.
  - unfold parse_row_na. now rewrite Hbad.
  - rewrite IH. now destruct (parse_row_na row).
Qed.

Lemma parse_rows_na_good (rows : list Row) :
  Forall (fun row => date_cell (Date_text row) <> None) rows ->
  exists df,
    parse_rows_na rows = Some df
    /\ List.length df = List.length rows
    /\ map (fun a => Some (Date_na a)) df = map (fun row => date_cell (Date_text row)) rows
    /\ map Category_na df = map Category_cell rows
    /\ map Hours_na df = map Hours_cell rows.
Proof.
  induction 1 as [|row rows Hrow _ [df [E [Hl [Hd [Hc Hh]]]]]]; simpl.
  - exists []. repeat split.
  - unfold parse_row_na.
    destruct (date_cell (Date_text row)) as [d|] eqn:Ed; [|now elim Hrow].
    rewrite E. eexists. split; [reflexivity|]. simpl.
    now rewrite Hl, Hd, Hc, Hh.
Qed.

(** On a file without missing [Date] cells the two readings of [load_data]
    agree. *)
Lemma load_data_na_present (rows : list Row) :
  Forall (fun row => is_missing (Date_text row) = false) rows ->
  load_data_na (Some rows)
  = match load_data (Some rows) with
    | Frame df => FrameNa (map with_date df)
    | Stopped e => StoppedNa e
    end.
Proof.
  intros Hp. unfold load_data_na, load_data.
  assert (H : parse_rows_na rows = option_map (map with_date) (parse_rows rows)).
  { induction Hp as [|row rows Hrow _ IH]; simpl; [reflexivity|].
    rewrite IH. unfold parse_row_na, parse_row, date_cell. rewrite Hrow.
    destruct (to_datetime (Date_text row)); [|reflexivity].
    now destruct (parse_rows rows). }
  rewrite H. now destruct (parse_rows rows).
Qed.

(** C4, amended: [load_data] halts with the not-found error when the file is
    absent, and halts with the read error, returning no frame, when the
    [Date] text of at least one row is present and rejected by the parser.
    When no text is rejected it returns a frame with one row for each line,
    none skipped, the date of a row being missing where its [Date] cell is
    empty or a missing-value marker. *)
Theorem load_data_na_spec :
  load_data_na None = StoppedNa NotFound
  /\ (forall rows,
        Exists (fun row => is_missing (Date_text row) = false
                           /\ to_datetime (Date_text row) = None) rows ->
        load_data_na (Some rows) = StoppedNa ParseFailure)
  /\ (forall rows,
        Forall (fun row => is_missing (Date_text row) = true
                           \/ to_datetime (Date_text row) <> None) rows ->
        exists df,
          load_data_na (Some rows) = FrameNa df
          /\ List.length df = List.length rows
          /\ map Date_na df
             = map (fun row => if is_missing (Date_text row) then None
                               else to_datetime (Date_text row)) rows
          /\ map Category_na df = map Category_cell rows
          /\ map Hours_na df = map Hours_cell rows).
Proof.
  split; [reflexivity|]. split.
  - intros rows Hbad. unfold load_data_na. rewrite parse_rows_na_bad; [reflexivity|].
    eapply Exists_impl; [|exact Hbad]. intros row. apply date_cell_raises.
  - intros rows Hgood.
    destruct (parse_rows_na_good rows) as [df [E [Hl [Hd [Hc Hh]]]]].
    { eapply Forall_impl; [|exact Hgood]. intros row Hrow Hnone.
      apply date_cell_raises in Hnone. destruct Hnone as [Hm Ht].
      destruct Hrow as [Hrow | Hrow]; congruence. }
    exists df. unfold load_data_na. rewrite E. repeat split; auto.
    clear -Hd Hgood. revert df Hd.
    induction Hgood as [|row rows Hrow _ IH]; intros [|a df] Hd;
      simpl in *; try discriminate; [reflexivity|].
    injection Hd as Ha Hd. rewrite (IH df Hd). f_equal.
    unfold date_cell in Ha. destruct (is_missing (Date_text row)).
    + now injection Ha.
    + destruct (to_datetime (Date_text row)); [now injection Ha | discriminate].
Qed.

End MissingDateFacts.

(** C4 as stated fails: a file whose second row has an empty [Date] cell
    loads; the frame has both rows, the second with a missing date. *)
Lemma missing_date_loads :
  @load_data_na iso_format
    (Some [mkRow "2024-01-01" "A" 2; mkRow "" "A" 1])
  = FrameNa [mkActivityNa (Some 19723) "A" 2; mkActivityNa None "A" 1]
  /\ @date_cell iso_format "" = Some None.
Proof.
  split; reflexivity.
Qed.

Lemma load_data_na_spec_witness :
  @load_data_na iso_format
    (Some [mkRow "2024-01-01" "A" 2; mkRow "someday" "A" 1; mkRow "" "B" 3])
  = StoppedNa ParseFailure.
Proof.
  apply (proj1 (proj2 (@load_data_na_spec iso_format))).
  apply Exists_cons_tl, Exists_cons_hd. split; reflexivity.
Defined.

(** ** The frames that the tabs are computed from *)

(** X6: the frame that a tab summarises holds exactly the loaded rows of its
    period, each as often as it was loaded, ordered newest first. *)
Theorem tab_frame_of_loaded (today : Z) (tab : Tab) (loaded : list Activity) :
  Permutation (df_filtered today tab (script_rows loaded))
              (df_filtered today tab loaded)
  /\ StronglySorted (fun a b => Date b <= Date a)
       (df_filtered today tab (script_rows loaded)).
Proof.
  split; [apply df_filtered_perm, script_rows_perm|].
  assert (Hs : StronglySorted (fun a b => Date b <= Date a) (script_rows loaded)).
  { unfold script_rows, main_df. apply sorted_rows, sort_values_desc. }
  destruct tab; simpl; try exact Hs; now apply sorted_filter.
Qed.

Lemma df_weekly_weeks_perm (df df' : list Activity) :
  Permutation df df' -> map fst (df_weekly df) = map fst (df_weekly df').
Proof.
  intros Hp. unfold df_weekly.
  rewrite <- (min_date_perm df df' Hp), <- (max_date_perm df df' Hp).
  destruct (min_date df) as [lo|]; [|reflexivity].
  destruct (max_date df) as [hi|]; [|reflexivity].
  rewrite !map_map. reflexivity.
Qed.

(** X8: the weeks of the weekly series do not depend on the order of the
    rows: two frames with the same rows give the same sequence of weeks. *)
Theorem weekly_weeks_order_independent (df df' : list Activity) :
  Permutation df df' -> map fst (df_weekly df) = map fst (df_weekly df').
Proof.
  exact (df_weekly_weeks_perm df df').
Qed.

Lemma weekly_weeks_order_independent_witness :
  map fst (df_weekly [mkActivity 19737 "B" (3 # 2); mkActivity 19723 "A" 2])
  = map fst (df_weekly [mkActivity 19723 "A" 2; mkActivity 19737 "B" (3 # 2)]).
Proof.
  apply weekly_weeks_order_independent. apply perm_swap.
Defined.

(** X9: the trend tab shows its warning exactly when the file has no row;
    otherwise the weeks of its series are the weeks of the loaded rows, the
    sorting of the frame making no difference. *)
Theorem trend_tab_weeks (loaded : list Activity) :
  (trend_tab loaded = None <-> loaded = [])
  /\ forall series, trend_tab loaded = Some series ->
       map fst series = map fst (df_weekly loaded).
Proof.
  pose proof (script_rows_perm loaded) as Hp.
  unfold trend_tab. split.
  - split.
    + destruct (script_rows loaded) as [|r rows]; [|discriminate].
      intros _. now apply Permutation_nil.
    + intros ->. reflexivity.
  - intros series.
    destruct (script_rows loaded) as [|r rows] eqn:E; [discriminate|].
    intros [= <-]. rewrite <- E in Hp |- *. now apply df_weekly_weeks_perm.
Qed.
